(** * Image similarity search app: a shallow embedding of
      [image_similarity_streamlit_app.py]

    The program is a Streamlit script over three external systems: a
    Snowflake session (SQL, stage files, the AI_EMBED function), the
    Cortex Search service [IMAGES_CS_SERVICE], and the PIL imaging
    library.  The script's functions are embedded as computations in a
    small state-and-exception monad over a [World] that holds what the
    script can observe or change; what the external systems answer is
    given by an environment [Env] of oracles. *)

From Stdlib Require Import ZArith QArith Ascii String List Sorted Permutation Lia.
From stdpp Require Import base gmap strings list sorting pretty.

Local Open Scope string_scope.
Local Open Scope Z_scope.
Local Open Scope list_scope.

(** ** Python values *)

(** The Python values the script passes around.  Vector components are
    floats in the program; the script never computes with them (it only
    forwards them and takes [len]), so they are carried as rationals. *)
Inductive value : Type :=
  | VNone
  | VInt (n : Z)
  | VStr (s : string)
  | VVector (v : list Q).

(** A Python [dict] with string keys. *)
Abbreviation pydict := (gmap string value).

(** [d.get(key, default)]: the stored value when the key is present
    (even when that value is [None]), the default otherwise. *)
Definition dict_get (d : pydict) (key : string) (dflt : value) : value :=
  default dflt (d !! key).

(** Python truthiness, as used by [if url:]. *)
Definition truthy (v : value) : bool :=
  match v with
  | VNone => false
  | VInt n => negb (n =? 0)
  | VStr s => negb (String.eqb s "")
  | VVector v => match v with [] => false | _ => true end
  end.

(** [hasattr(v, '__len__')] and [len(v)]. *)
Definition has_len (v : value) : bool :=
  match v with
  | VStr _ | VVector _ => true
  | VNone | VInt _ => false
  end.

Definition py_len (v : value) : nat :=
  match v with
  | VStr s => String.length s
  | VVector v => length v
  | VNone | VInt _ => O
  end.

(** Exceptions caught by [except Exception as e]; [str(e)] is the
    message. *)
Inductive exn : Type := Exception (msg : string).

Inductive outcome (A : Type) : Type :=
  | Returned (a : A)
  | Raised (e : exn).
Arguments Returned {A} a.
Arguments Raised {A} e.

(** ** Streamlit output *)

(** An f-string keeps its parts; how [str] renders an interpolated value
    is left to the presentation layer. *)
Inductive piece : Type :=
  | Lit (s : string)
  | Val (v : value)
  | Num (n : Z)
  | Exn (e : exn).

Definition fstring := list piece.

Record Image : Type := mkImage { mode : string; raster : list Z }.

Inductive image_src : Type :=
  | SrcValue (v : value)
  | SrcImage (img : Image).

Inductive UiEvent : Type :=
  | StError (msg : fstring)
  | StWarning (msg : fstring)
  | StSuccess (msg : fstring)
  | StSubheader (msg : fstring)
  | StImage (src : image_src) (caption : fstring).

(** ** The world and the environment *)

(** A row of [IMAGES_TABLE_DOWNLOADED_VECT] as selected by the script. *)
Record Row : Type := mkRow {
  SOURCE_ID : value;
  ORIGINAL_URL : value;
  STAGE_FILE_PATH : value;
  IMAGE_VECTOR : value
}.

Definition bytes := list Z.

Record World : Type := mkWorld {
  ui : list UiEvent;                 (* elements emitted, oldest first *)
  corpus : list pydict;              (* documents indexed by the search service *)
  tables : gmap string (list Row);   (* the session's tables, by name *)
  available_images_cache : option (list Row * list UiEvent);
                                     (* st.cache_data entry of get_available_images *)
  stage : gmap string bytes;         (* files of the stage, by path *)
  local_fs : gmap string bytes;      (* local temporary files, by path *)
  tmp_counter : nat;                 (* temporary-name supply *)
  embed_calls : list (string * bytes)  (* AI_EMBED invocations: model, file content *)
}.

(** The request [my_service.search(multi_index_query={"image_vector":
    [{"vector": query_vector}]}, columns=[...], limit=top_k)]. *)
Record SearchRequest : Type := mkSearchRequest {
  req_vector : value;
  req_columns : list string;
  req_limit : Z
}.

(** The two statements the script sends through [session.sql]:
    [SELECT SOURCE_ID, ORIGINAL_URL, STAGE_FILE_PATH, IMAGE_VECTOR FROM
    table ORDER BY order_col] and [SELECT AI_EMBED(model, TO_FILE(file))
    as image_vector]. *)
Inductive sql_query : Type :=
  | SelectOrdered (table order_col : string)
  | SelectAiEmbed (model file : string).

(** What the external systems answer.  The search service is read-only:
    its response is a function of the indexed corpus and the request. *)
Record Env : Type := mkEnv {
  cortex_search : list pydict -> SearchRequest -> outcome (list pydict);
  sql_fault : sql_query -> option exn;          (* session-level SQL failure *)
  ai_embed : string -> bytes -> outcome value;  (* the embedding model *)
  pil_open : bytes -> outcome Image;            (* Image.open *)
  pil_convert : Image -> string -> Image;       (* image.convert *)
  pil_save_jpeg : Image -> outcome bytes;       (* image.save(_, 'JPEG') *)
  put_fault : string -> option exn;             (* session.file.put failure *)
  st_image_fault : image_src -> option exn;     (* st.image failure *)
  tmp_fault : option exn                        (* NamedTemporaryFile failure *)
}.

(** ** The monad *)

Definition M (A : Type) : Type := World -> outcome A * World.

Definition ret {A} (a : A) : M A := fun w => (Returned a, w).

Definition bind {A B} (m : M A) (f : A -> M B) : M B :=
  fun w =>
    match m w with
    | (Returned a, w') => f a w'
    | (Raised e, w') => (Raised e, w')
    end.

Definition raise {A} (e : exn) : M A := fun w => (Raised e, w).

(** [try: body except Exception as e: handler]: the handler starts from
    the world the body left behind. *)
Definition try_except {A} (body : M A) (handler : exn -> M A) : M A :=
  fun w =>
    match body w with
    | (Returned a, w') => (Returned a, w')
    | (Raised e, w') => handler e w'
    end.

Definition lift_outcome {A} (o : outcome A) : M A := fun w => (o, w).

Declare Scope py_scope.
Delimit Scope py_scope with py.
Notation "x <- m ;; k" := (bind m (fun x => k))
  (at level 100, m at next level, right associativity) : py_scope.
Notation "m ;;; k" := (bind m (fun _ => k))
  (at level 100, right associativity) : py_scope.
Local Open Scope py_scope.

Definition emit (ev : UiEvent) : M unit :=
  fun w =>
    (Returned tt,
     mkWorld (ui w ++ [ev]) (corpus w) (tables w)
             (available_images_cache w) (stage w) (local_fs w)
             (tmp_counter w) (embed_calls w)).

Definition st_error (msg : fstring) : M unit := emit (StError msg).
Definition st_warning (msg : fstring) : M unit := emit (StWarning msg).
Definition st_success (msg : fstring) : M unit := emit (StSuccess msg).
Definition st_subheader (msg : fstring) : M unit := emit (StSubheader msg).

(** ** query_cortex_search *)

(** The dict built for one result of the service (lines 59-63). *)
Definition result_dict (result : pydict) : pydict :=
  <["SOURCE_ID" := dict_get result "source_id" (VStr "N/A")]>
  (<["ORIGINAL_URL" := dict_get result "original_url" (VStr "")]>
  (<["STAGE_FILE_PATH" := dict_get result "stage_file_path" (VStr "N/A")]> ∅)).

(** The loop [for result in resp.results: results.append(result_dict)]. *)
Definition convert_results (resp_results : list pydict) : list pydict :=
  fold_left (fun results result => results ++ [result_dict result])
            resp_results [].

Definition search_request (query_vector : value) (top_k : Z) : SearchRequest :=
  mkSearchRequest query_vector
                  ["source_id"; "original_url"; "stage_file_path"] top_k.

(** [my_service.search(...)]: reads the corpus, changes nothing. *)
Definition service_search (env : Env) (req : SearchRequest) : M (list pydict) :=
  fun w => (cortex_search env (corpus w) req, w).

Definition vector_length_piece (query_vector : value) : piece :=
  if has_len query_vector then Num (Z.of_nat (py_len query_vector))
  else Lit "Unknown".

Definition query_cortex_search (env : Env) (query_text : string)
    (query_vector : value) (top_k : Z) : M (list pydict) :=
  try_except
    (resp_results <- service_search env (search_request query_vector top_k) ;;
     ret (convert_results resp_results))
    (fun e =>
       st_error [Lit "Search error: "; Exn e] ;;;
       st_error [Lit "Query text: "; Lit query_text] ;;;
       st_error [Lit "Vector length: "; vector_length_piece query_vector] ;;;
       ret []).

(** ** The Snowflake session *)

Definition TABLE_NAME_DOWNLOADED_VECT : string := "IMAGES_TABLE_DOWNLOADED_VECT".
Definition STAGE_NAME : string := "IMAGES".

(** Ascending [ORDER BY] on one column: numbers by value, strings by
    their binary collation, NULL last. *)
Definition sql_rank (v : value) : nat :=
  match v with
  | VInt _ => 0%nat
  | VStr _ => 1%nat
  | VVector _ => 2%nat
  | VNone => 3%nat
  end.

Definition sql_leb (a b : value) : bool :=
  match a, b with
  | VInt x, VInt y => x <=? y
  | VStr s, VStr t => String.leb s t
  | _, _ => (sql_rank a <=? sql_rank b)%nat
  end.

Definition column (name : string) : option (Row -> value) :=
  if String.eqb name "SOURCE_ID" then Some SOURCE_ID
  else if String.eqb name "ORIGINAL_URL" then Some ORIGINAL_URL
  else if String.eqb name "STAGE_FILE_PATH" then Some STAGE_FILE_PATH
  else if String.eqb name "IMAGE_VECTOR" then Some IMAGE_VECTOR
  else None.

Definition row_le (col : Row -> value) (r1 r2 : Row) : Prop :=
  sql_leb (col r1) (col r2) = true.

#[global] Instance row_le_dec col r1 r2 : Decision (row_le col r1 r2) :=
  decide (sql_leb (col r1) (col r2) = true).

Definition order_by (col : Row -> value) (rows : list Row) : list Row :=
  merge_sort (row_le col) rows.

Definition set_cache (c : option (list Row * list UiEvent)) (w : World) : World :=
  mkWorld (ui w) (corpus w) (tables w) c (stage w) (local_fs w)
          (tmp_counter w) (embed_calls w).

Definition set_ui (u : list UiEvent) (w : World) : World :=
  mkWorld u (corpus w) (tables w) (available_images_cache w) (stage w)
          (local_fs w) (tmp_counter w) (embed_calls w).

Definition set_stage (s : gmap string bytes) (w : World) : World :=
  mkWorld (ui w) (corpus w) (tables w) (available_images_cache w) s
          (local_fs w) (tmp_counter w) (embed_calls w).

Definition set_local_fs (fs : gmap string bytes) (w : World) : World :=
  mkWorld (ui w) (corpus w) (tables w) (available_images_cache w) (stage w)
          fs (tmp_counter w) (embed_calls w).

Definition set_tmp_counter (n : nat) (w : World) : World :=
  mkWorld (ui w) (corpus w) (tables w) (available_images_cache w) (stage w)
          (local_fs w) n (embed_calls w).

Definition set_embed_calls (l : list (string * bytes)) (w : World) : World :=
  mkWorld (ui w) (corpus w) (tables w) (available_images_cache w) (stage w)
          (local_fs w) (tmp_counter w) l.

(** [session.sql(SELECT ... FROM table ORDER BY order_col).collect()]. *)
Definition sql_select_ordered (env : Env) (table order_col : string)
    : M (list Row) :=
  fun w =>
    match sql_fault env (SelectOrdered table order_col) with
    | Some e => (Raised e, w)
    | None =>
        match tables w !! table, column order_col with
        | Some rows, Some col => (Returned (order_by col rows), w)
        | None, _ =>
            (Raised (Exception ("Object '" +:+ table +:+ "' does not exist")), w)
        | _, None =>
            (Raised (Exception ("invalid identifier '" +:+ order_col +:+ "'")), w)
        end
    end.

(** [session.sql(SELECT AI_EMBED(model, TO_FILE(file)) as
    image_vector).collect()]: one row, whose IMAGE_VECTOR column is the
    embedding of the staged file.  Each run of the embedding model is
    recorded in [embed_calls]. *)
Definition sql_ai_embed (env : Env) (model file : string) : M (list value) :=
  fun w =>
    match sql_fault env (SelectAiEmbed model file) with
    | Some e => (Raised e, w)
    | None =>
        match stage w !! file with
        | None => (Raised (Exception ("File '" +:+ file +:+ "' not found")), w)
        | Some content =>
            let w' := set_embed_calls (embed_calls w ++ [(model, content)]) w in
            match ai_embed env model content with
            | Returned v => (Returned [v], w')
            | Raised e => (Raised e, w')
            end
        end
    end.

(** ** get_available_images *)

(** The decorated function's body (lines 79-93). *)
Definition get_available_images_body (env : Env) : M (list Row) :=
  try_except
    (result <- sql_select_ordered env TABLE_NAME_DOWNLOADED_VECT "SOURCE_ID" ;;
     ret result)
    (fun e =>
       st_error [Lit "Error loading images: "; Exn e] ;;;
       ret []).

(** [@st.cache_data] on a function without arguments: the first return
    value is stored together with the elements the call emitted; later
    calls replay the elements and return the stored value.  A call that
    raises stores nothing. *)
Definition st_cache_data (body : M (list Row)) : M (list Row) :=
  fun w =>
    match available_images_cache w with
    | Some (result, elements) => (Returned result, set_ui (ui w ++ elements) w)
    | None =>
        match body w with
        | (Returned result, w') =>
            (Returned result,
             set_cache (Some (result, drop (length (ui w)) (ui w'))) w')
        | (Raised e, w') => (Raised e, w')
        end
    end.

Definition get_available_images (env : Env) : M (list Row) :=
  st_cache_data (get_available_images_body env).

(** ** display_image_grid *)

Definition newline : string := String (ascii_of_nat 10) EmptyString.

(** The [query_info] dict: each key either absent or bound. *)
Record QueryInfo : Type := mkQueryInfo {
  qi_uploaded_image : option Image;
  qi_url : option value;
  qi_file_path : option value;
  qi_source_id : option value
}.

(** [st.image(src, caption=...)]. *)
Definition st_image (env : Env) (src : image_src) (caption : fstring) : M unit :=
  match st_image_fault env src with
  | Some e => raise e
  | None => emit (StImage src caption)
  end.

(** Truthiness of the dict: it has at least one key. *)
Definition query_info_truthy (qi : QueryInfo) : bool :=
  match qi_uploaded_image qi, qi_url qi, qi_file_path qi, qi_source_id qi with
  | None, None, None, None => false
  | _, _, _, _ => true
  end.

(** Lines 103-113.  A PIL image is always truthy. *)
Definition display_query_image (env : Env) (query_info : QueryInfo) : M unit :=
  st_subheader [Lit "🎯 Query Image"] ;;;
  try_except
    (match qi_uploaded_image query_info with
     | Some img => st_image env (SrcImage img) [Lit "Uploaded Image"]
     | None =>
         match qi_url query_info with
         | Some url =>
             st_image env (SrcValue url)
               [Lit "Query: ";
                Val (default (VStr "Unknown") (qi_file_path query_info))]
         | None => raise (Exception "'url'")
         end
     end)
    (fun e => st_error [Lit "Error displaying query image: "; Exn e]).

(** The body of the inner loop (lines 124-135) for the result shown at
    1-based position [pos] (the source's [i+j+1]). *)
Definition display_result (env : Env) (pos : Z) (result : pydict) : M unit :=
  try_except
    (let source_id := dict_get result "SOURCE_ID" (VStr "N/A") in
     let url := dict_get result "ORIGINAL_URL" (VStr "") in
     let file_path := dict_get result "STAGE_FILE_PATH" (VStr "N/A") in
     if truthy url then
       st_image env (SrcValue url)
         [Lit "#"; Num pos; Lit ": ID "; Val source_id; Lit newline; Val file_path]
     else
       st_error [Lit "No URL for result #"; Num pos])
    (fun e => st_error [Lit "Error loading image #"; Num pos; Lit ": "; Exn e]).

(** The two nested loops visit the results in order, three per row of
    columns; the column layout is not part of the model. *)
Fixpoint display_results (env : Env) (pos : Z) (results : list pydict) : M unit :=
  match results with
  | [] => ret tt
  | result :: rest =>
      display_result env pos result ;;;
      display_results env (pos + 1) rest
  end.

Definition display_image_grid (env : Env) (results : list pydict)
    (query_info : option QueryInfo) : M unit :=
  match results with
  | [] => st_warning [Lit "No results to display"]
  | _ :: _ =>
      (match query_info with
       | Some qi =>
           if query_info_truthy qi then display_query_image env qi else ret tt
       | None => ret tt
       end) ;;;
      st_subheader [Lit "📊 Top "; Num (Z.of_nat (length results));
                    Lit " Similar Images"] ;;;
      display_results env 1 results
  end.

(** ** The upload-search handler (tab 2, lines 264-323) *)

Record UploadedFile : Type := mkUploadedFile {
  uf_name : string;
  uf_value : bytes;
  uf_type : string
}.

(** [os.path.basename]: what follows the last slash. *)
Fixpoint basename_aux (acc p : string) : string :=
  match p with
  | EmptyString => acc
  | String c rest =>
      if Ascii.eqb c "/"%char then basename_aux EmptyString rest
      else basename_aux (acc +:+ String c EmptyString) rest
  end.

Definition basename (p : string) : string := basename_aux EmptyString p.

(** [tempfile] tries candidate names until one names no existing file,
    at most [TMP_MAX] times.  The candidates come from the name supply of
    the world. *)
Definition TMP_MAX : nat := Z.to_nat 10000.

Definition tmp_candidate (n : nat) (suffix : string) : string :=
  "/tmp/tmp" +:+ pretty n +:+ suffix.

Fixpoint unused_candidate (fuel n : nat) (suffix : string)
    (fs : gmap string bytes) : option nat :=
  match fuel with
  | O => None
  | S fuel' =>
      match fs !! tmp_candidate n suffix with
      | None => Some n
      | Some _ => unused_candidate fuel' (S n) suffix fs
      end
  end.

(** [tempfile.NamedTemporaryFile(delete=False, suffix=...)]: creates an
    empty file under a name that names no existing file and gives its
    name; raises when the file cannot be created or no unused name is
    found. *)
Definition named_temporary_file (env : Env) (suffix : string) : M string :=
  fun w =>
    match tmp_fault env with
    | Some e => (Raised e, w)
    | None =>
        match unused_candidate TMP_MAX (tmp_counter w) suffix (local_fs w) with
        | Some n =>
            let name := tmp_candidate n suffix in
            (Returned name,
             set_tmp_counter (S n)
                             (set_local_fs (<[name := []]> (local_fs w)) w))
        | None =>
            (Raised (Exception "No usable temporary file name found"), w)
        end
    end.

(** [Image.open(uploaded_file)]: decodes from the start of the upload. *)
Definition image_open (env : Env) (uploaded_file : UploadedFile) : M Image :=
  lift_outcome (pil_open env (uf_value uploaded_file)).

(** Lines 271-272. *)
Definition to_rgb (env : Env) (image : Image) : Image :=
  if String.eqb (mode image) "RGB" then image
  else pil_convert env image "RGB".

(** [image.save(path, 'JPEG')]. *)
Definition image_save_jpeg (env : Env) (image : Image) (path : string) : M unit :=
  fun w =>
    match pil_save_jpeg env image with
    | Returned content =>
        (Returned tt, set_local_fs (<[path := content]> (local_fs w)) w)
    | Raised e => (Raised e, w)
    end.

(** [session.file.put(local, location, overwrite=True,
    auto_compress=False)]: the staged file keeps the local file's base
    name and content. *)
Definition session_file_put (env : Env) (local_path location : string) : M unit :=
  fun w =>
    match put_fault env local_path with
    | Some e => (Raised e, w)
    | None =>
        match local_fs w !! local_path with
        | None =>
            (Raised (Exception ("File '" +:+ local_path +:+ "' not found")), w)
        | Some content =>
            (Returned tt,
             set_stage (<[location +:+ basename local_path := content]> (stage w)) w)
        end
    end.

Definition os_path_exists (path : string) : M bool :=
  fun w => (Returned (bool_decide (is_Some (local_fs w !! path))), w).

Definition os_unlink (path : string) : M unit :=
  fun w =>
    match local_fs w !! path with
    | Some _ => (Returned tt, set_local_fs (delete path (local_fs w)) w)
    | None => (Raised (Exception ("No such file: '" +:+ path +:+ "'")), w)
    end.

(** The [try] block of lines 266-314, after the temporary file exists. *)
Definition upload_search_body (env : Env) (uploaded_file : UploadedFile)
    (top_k_upload : Z) (tmp_file_name : string) : M unit :=
  image <- image_open env uploaded_file ;;
  let image := to_rgb env image in
  image_save_jpeg env image tmp_file_name ;;;
  session_file_put env tmp_file_name ("@" +:+ STAGE_NAME +:+ "/temp/") ;;;
  let temp_filename := basename tmp_file_name in
  vector_result <-
    sql_ai_embed env "voyage-multimodal-3"
                 ("@" +:+ STAGE_NAME +:+ "/temp/" +:+ temp_filename) ;;
  (match vector_result with
   | uploaded_vector :: _ =>
       results <- query_cortex_search env (uf_name uploaded_file)
                                      uploaded_vector top_k_upload ;;
       display_image_grid env results
         (Some (mkQueryInfo (Some image) None
                            (Some (VStr (uf_name uploaded_file))) None)) ;;;
       st_success [Lit "✅ Found "; Num (Z.of_nat (length results));
                   Lit " similar images!"]
   | [] => ret tt
   end) ;;;
  os_unlink tmp_file_name.

(** Lines 316-323.  [tmp_file] is the name bound by the [with] statement,
    if the [try] block got that far: ['tmp_file' in locals()]. *)
Definition upload_search_except (tmp_file : option string) (e : exn) : M unit :=
  st_error [Lit "❌ Upload search failed: "; Exn e] ;;;
  try_except
    (match tmp_file with
     | Some tmp_file_name =>
         there <- os_path_exists tmp_file_name ;;
         if there then os_unlink tmp_file_name else ret tt
     | None => ret tt
     end)
    (fun _ => ret tt).

(** Lines 266-323: the [try] block opens the temporary file and runs the
    body; the handler knows the file's name only if it was created. *)
Definition upload_search (env : Env) (uploaded_file : UploadedFile)
    (top_k_upload : Z) : M unit :=
  fun w =>
    match named_temporary_file env ".jpeg" w with
    | (Returned tmp_file_name, w1) =>
        try_except
          (upload_search_body env uploaded_file top_k_upload tmp_file_name)
          (upload_search_except (Some tmp_file_name)) w1
    | (Raised e, w1) => upload_search_except None e w1
    end.

(** [if uploaded_file and search_upload_button: ...]. *)
Definition upload_search_handler (env : Env) (uploaded_file : option UploadedFile)
    (search_upload_button : bool) (top_k_upload : Z) : M unit :=
  match uploaded_file with
  | Some file =>
      if search_upload_button then upload_search env file top_k_upload
      else ret tt
  | None => ret tt
  end.

(** ** Sample environments and worlds *)

Definition doc_of (source_id : Z) (url path : string) : pydict :=
  <["source_id" := VInt source_id]>
  (<["original_url" := VStr url]>
  (<["stage_file_path" := VStr path]> ∅)).

Definition sample_corpus : list pydict :=
  [ doc_of 7 "https://img/7.jpg" "images/7.jpg";
    doc_of 3 "https://img/3.jpg" "images/3.jpg";
    <["source_id" := VInt 5]> ∅ ].

Definition sample_rows : list Row :=
  [ mkRow (VInt 7) (VStr "https://img/7.jpg") (VStr "images/7.jpg") (VVector [1%Q; 0%Q]);
    mkRow (VInt 3) (VStr "https://img/3.jpg") (VStr "images/3.jpg") (VVector [0%Q; 1%Q]);
    mkRow (VInt 5) (VStr "https://img/5.jpg") (VStr "images/5.jpg") (VVector [1%Q; 1%Q]) ].

Definition world_of (docs : list pydict) (tbls : gmap string (list Row)) : World :=
  mkWorld [] docs tbls None ∅ ∅ 0%nat [].

Definition sample_world : World :=
  world_of sample_corpus {[ TABLE_NAME_DOWNLOADED_VECT := sample_rows ]}.

Definition empty_world : World := world_of [] ∅.

(** A decoder that reads the first byte as the colour mode, a converter
    that sets the mode, an encoder that prefixes the JPEG marker. *)
Definition sample_open (content : bytes) : outcome Image :=
  match content with
  | [] => Raised (Exception "cannot identify image file")
  | 0 :: px => Returned (mkImage "RGB" px)
  | _ :: px => Returned (mkImage "RGBA" px)
  end.

Definition sample_convert (img : Image) (m : string) : Image :=
  mkImage m (raster img).

Definition sample_save_jpeg (img : Image) : outcome bytes :=
  Returned (255 :: 216 :: raster img).

Definition sample_embed (model : string) (content : bytes) : outcome value :=
  Returned (VVector (map inject_Z content)).

(** A service that answers with the first [limit] documents of the
    corpus and rejects a negative limit. *)
Definition first_k_search (docs : list pydict) (req : SearchRequest)
    : outcome (list pydict) :=
  if req_limit req <? 0 then Raised (Exception "invalid limit")
  else Returned (take (Z.to_nat (req_limit req)) docs).

(** A service that cannot be reached. *)
Definition unreachable_search (docs : list pydict) (req : SearchRequest)
    : outcome (list pydict) :=
  Raised (Exception "service unavailable").

(** A service that answers with every document whatever the request. *)
Definition permissive_search (docs : list pydict) (req : SearchRequest)
    : outcome (list pydict) :=
  Returned docs.

Definition env_with
    (search : list pydict -> SearchRequest -> outcome (list pydict)) : Env :=
  mkEnv search (fun _ => None) sample_embed sample_open sample_convert
        sample_save_jpeg (fun _ => None) (fun _ => None) None.

Definition sample_env : Env := env_with first_k_search.
Definition unreachable_env : Env := env_with unreachable_search.
Definition permissive_env : Env := env_with permissive_search.

(** A session whose every statement fails. *)
Definition broken_session_env : Env :=
  mkEnv first_k_search (fun _ => Some (Exception "session expired"))
        sample_embed sample_open sample_convert sample_save_jpeg
        (fun _ => None) (fun _ => None) None.

Definition sample_upload : UploadedFile :=
  mkUploadedFile "cat.png" [1; 10; 20; 30] "image/png".

(** The three keys of a result of [query_cortex_search]. *)
Definition result_keys : gset string :=
  {[ "SOURCE_ID"; "ORIGINAL_URL"; "STAGE_FILE_PATH" ]}.

(** A result carries a distance when it has some field besides the record
    identifier and the two display fields. *)
Definition carries_distance (r : pydict) : Prop :=
  exists key, (key ∉ result_keys) /\ is_Some (r !! key).

(** The elements the exception handler of [query_cortex_search] emits. *)
Definition search_error_elements (query_text : string) (query_vector : value)
    (e : exn) : list UiEvent :=
  [ StError [Lit "Search error: "; Exn e];
    StError [Lit "Query text: "; Lit query_text];
    StError [Lit "Vector length: "; vector_length_piece query_vector] ].

(** ** Definitions used by the statements *)

Definition EMBED_MODEL : string := "voyage-multimodal-3".

(** Why no temporary file can be created in world [w], if so. *)
Definition temp_file_fault (env : Env) (w : World) : option exn :=
  match tmp_fault env with
  | Some e => Some e
  | None =>
      match unused_candidate TMP_MAX (tmp_counter w) ".jpeg" (local_fs w) with
      | Some _ => None
      | None => Some (Exception "No usable temporary file name found")
      end
  end.

(** The index and the name the temporary file gets in world [w] when it
    is created, and where the handler stages it. *)
Definition tmp_index_of (w : World) : nat :=
  default (tmp_counter w)
          (unused_candidate TMP_MAX (tmp_counter w) ".jpeg" (local_fs w)).

Definition tmp_name_of (w : World) : string :=
  tmp_candidate (tmp_index_of w) ".jpeg".

Definition staged_path_of (w : World) : string :=
  "@IMAGES/temp/" +:+ basename (tmp_name_of w).


(** ** The grid loops as written (lines 117-135) *)

(** [range(start, stop, step)] for a positive step; at most [stop]
    elements, so [stop] steps of fuel are enough. *)
Fixpoint range_from (fuel start stop step : nat) : list nat :=
  match fuel with
  | O => []
  | S fuel' =>
      if (start <? stop)%nat
      then start :: range_from fuel' (start + step) stop step
      else []
  end.

Definition py_range (start stop step : nat) : list nat :=
  range_from stop start stop step.

(** [enumerate(l)]. *)
Fixpoint enumerate_from {X : Type} (j : nat) (l : list X) : list (nat * X) :=
  match l with
  | [] => []
  | x :: rest => (j, x) :: enumerate_from (S j) rest
  end.

Definition enumerate {X : Type} (l : list X) : list (nat * X) :=
  enumerate_from 0 l.

(** A [for] loop whose body returns nothing. *)
Fixpoint for_each {X : Type} (l : list X) (body : X -> M unit) : M unit :=
  match l with
  | [] => ret tt
  | x :: rest => body x ;;; for_each rest body
  end.

(** Lines 118-135 with their two loops: [i] runs over
    [range(0, len(results), cols_per_row)], [j, result] over
    [enumerate(results[i:i+cols_per_row])], and the result is shown under
    the number [i+j+1]. *)
Definition display_grid_loops (env : Env) (results : list pydict) : M unit :=
  let cols_per_row := 3%nat in
  for_each (py_range 0 (length results) cols_per_row)
    (fun i =>
       for_each (enumerate (take cols_per_row (drop i results)))
         (fun '(j, result) =>
            display_result env (Z.of_nat i + Z.of_nat j + 1) result)).

(** The element [display_result] leaves for the result at position
    [pos]: the image, or an error when the result has no URL or the image
    cannot be shown. *)
Definition result_element (env : Env) (pos : Z) (result : pydict) : UiEvent :=
  let url := dict_get result "ORIGINAL_URL" (VStr "") in
  if truthy url then
    match st_image_fault env (SrcValue url) with
    | None =>
        StImage (SrcValue url)
          [Lit "#"; Num pos; Lit ": ID ";
           Val (dict_get result "SOURCE_ID" (VStr "N/A")); Lit newline;
           Val (dict_get result "STAGE_FILE_PATH" (VStr "N/A"))]
    | Some e => StError [Lit "Error loading image #"; Num pos; Lit ": "; Exn e]
    end
  else StError [Lit "No URL for result #"; Num pos].

(** ** The selection tab (tab 1): options and search (lines 155-158, 196-220) *)

(** The selectbox label of a row, [f"ID {img['SOURCE_ID']}:
    {img['STAGE_FILE_PATH']}"]; [str] is Python's rendering of a value. *)
Definition option_label (str : value -> string) (img : Row) : string :=
  "ID " +:+ str (SOURCE_ID img) +:+ ": " +:+ str (STAGE_FILE_PATH img).

(** The dict comprehension of lines 155-158. *)
Definition image_options (str : value -> string) (available_images : list Row)
    : gmap string Row :=
  fold_left (fun options img => <[option_label str img := img]> options)
            available_images ∅.

(** [d[key]]: raises KeyError when the key is absent. *)
Definition dict_getitem {V : Type} (d : gmap string V) (key : string) : M V :=
  match d !! key with
  | Some v => ret v
  | None => raise (Exception ("'" +:+ key +:+ "'"))
  end.

(** Truthiness of the selectbox value. *)
Definition option_truthy (selected_option : option string) : bool :=
  match selected_option with
  | Some s => negb (String.eqb s "")
  | None => false
  end.

(** Lines 196-220: the search of the selected image. *)
Definition tab1_search (env : Env) (str : value -> string)
    (options : gmap string Row) (selected_option : option string)
    (search_button : bool) (top_k : Z) : M unit :=
  if search_button && option_truthy selected_option then
    selected_image <- dict_getitem options (default "" selected_option) ;;
    try_except
      (results <- query_cortex_search env (str (ORIGINAL_URL selected_image))
                                     (IMAGE_VECTOR selected_image) top_k ;;
       let query_info :=
         mkQueryInfo None (Some (ORIGINAL_URL selected_image))
                     (Some (STAGE_FILE_PATH selected_image))
                     (Some (SOURCE_ID selected_image)) in
       display_image_grid env results (Some query_info) ;;;
       st_success [Lit "✅ Found "; Num (Z.of_nat (length results));
                   Lit " similar images!"])
      (fun e => st_error [Lit "❌ Search failed: "; Exn e])
  else ret tt.

(** A rendering of the values the sample labels are made of. *)
Definition sample_str (v : value) : string :=
  match v with
  | VNone => "None"
  | VInt n => pretty n
  | VStr s => s
  | VVector _ => "[...]"
  end.

(** The element the handler's [except] branch shows. *)
Definition upload_failed_element (e : exn) : UiEvent :=
  StError [Lit "❌ Upload search failed: "; Exn e].

(** The world one run of the upload search leaves behind, given what it
    showed, what the stage holds and which embedding calls were made. *)
Definition upload_search_world (w : World) (elements : list UiEvent)
    (stage' : gmap string bytes) (calls : list (string * bytes)) : World :=
  mkWorld (ui w ++ elements) (corpus w) (tables w) (available_images_cache w)
          stage' (local_fs w) (S (tmp_index_of w)) calls.

(** ** Facts about the monad and the primitives *)

Lemma convert_results_acc (docs acc : list pydict) :
  fold_left (fun results result => results ++ [result_dict result]) docs acc
  = acc ++ map result_dict docs.
Proof.
  revert acc. induction docs as [|d docs IH]; intros acc; simpl.
  - by rewrite app_nil_r.
  - rewrite IH. by rewrite <- app_assoc.
Qed.

Lemma convert_results_map (docs : list pydict) :
  convert_results docs = map result_dict docs.
Proof. unfold convert_results. by rewrite convert_results_acc. Qed.

(** What one call of [query_cortex_search] does, by the service's answer. *)
Lemma query_cortex_search_run env query_text query_vector top_k w :
  query_cortex_search env query_text query_vector top_k w =
  match cortex_search env (corpus w) (search_request query_vector top_k) with
  | Returned docs => (Returned (map result_dict docs), w)
  | Raised e =>
      (Returned [],
       set_ui (ui w ++ search_error_elements query_text query_vector e) w)
  end.
Proof.
  unfold query_cortex_search, try_except, bind, service_search, ret.
  destruct (cortex_search env (corpus w) (search_request query_vector top_k))
    as [docs|e].
  - by rewrite convert_results_map.
  - unfold st_error, emit, set_ui, search_error_elements. simpl.
    by rewrite <- !app_assoc.
Qed.

Lemma result_dict_dom (doc : pydict) : dom (result_dict doc) = result_keys.
Proof.
  unfold result_dict, result_keys. rewrite !dom_insert_L, dom_empty_L.
  set_solver.
Qed.

Lemma result_dict_no_distance (doc : pydict) : ~ carries_distance (result_dict doc).
Proof.
  intros (key & Hkey & Hsome). apply Hkey.
  rewrite <- (result_dict_dom doc). by apply elem_of_dom.
Qed.

(** ** query_cortex_search: shape of the results *)

(** C8: every element of the list returned by [query_cortex_search] is a
    dict whose keys are exactly SOURCE_ID, ORIGINAL_URL and
    STAGE_FILE_PATH; each value is the column of one row of the service's
    response, or the default 'N/A', '', 'N/A' when the row lacks the column;
    no other field (no distance, no score) is present. *)
Theorem query_cortex_search_result_keys env query_text query_vector top_k w
    results w' (r : pydict) :
  query_cortex_search env query_text query_vector top_k w = (Returned results, w') ->
  r ∈ results ->
  dom r = result_keys
  /\ (forall key, key ∉ result_keys -> r !! key = None)
  /\ exists (docs : list pydict) (doc : pydict),
       cortex_search env (corpus w) (search_request query_vector top_k)
         = Returned docs
       /\ doc ∈ docs
       /\ r !! "SOURCE_ID" = Some (default (VStr "N/A") (doc !! "source_id"))
       /\ r !! "ORIGINAL_URL" = Some (default (VStr "") (doc !! "original_url"))
       /\ r !! "STAGE_FILE_PATH" = Some (default (VStr "N/A") (doc !! "stage_file_path")).
Proof.
  rewrite query_cortex_search_run.
  destruct (cortex_search env (corpus w) (search_request query_vector top_k))
    as [docs|e]; intros Hrun Hin; inversion Hrun; subst.
  - apply list_elem_of_fmap in Hin as (doc & -> & Hdoc).
    split; [apply result_dict_dom|]. split.
    + intros key Hkey. apply not_elem_of_dom. by rewrite result_dict_dom.
    + exists docs, doc. split; [reflexivity|]. split; [exact Hdoc|].
      unfold result_dict, dict_get. by simplify_map_eq.
  - by apply elem_of_nil in Hin.
Qed.

Lemma query_cortex_search_result_keys_witness :
  exists r : pydict,
    r !! "SOURCE_ID" = Some (VInt 5)
    /\ r !! "ORIGINAL_URL" = Some (VStr "")
    /\ dom r = result_keys
    /\ (forall key, key ∉ result_keys -> r !! key = None).
Proof.
  exists (result_dict (<["source_id" := VInt 5]> ∅)).
  split; [reflexivity|]. split; [reflexivity|].
  pose proof (query_cortex_search_result_keys sample_env "q" (VVector [1%Q; 0%Q]) 3
                sample_world (map result_dict sample_corpus) sample_world
                (result_dict (<["source_id" := VInt 5]> ∅))) as H.
  destruct H as (Hdom & Hnone & _).
  - reflexivity.
  - unfold sample_corpus. simpl. set_solver.
  - split; assumption.
Defined.

(** ** query_cortex_search: order *)

(** C1, as the code has it: when the service answers, the returned list
    has one result per response row, in the order of the response (the
    i-th result is built from the i-th row), and no returned result
    carries a distance. *)
Theorem query_cortex_search_keeps_service_order env query_text query_vector
    top_k w docs :
  cortex_search env (corpus w) (search_request query_vector top_k) = Returned docs ->
  exists results,
    query_cortex_search env query_text query_vector top_k w = (Returned results, w)
    /\ length results = length docs
    /\ (forall i : nat, results !! i = result_dict <$> docs !! i)
    /\ Forall (fun r => ~ carries_distance r) results.
Proof.
  intros Hsvc. exists (map result_dict docs).
  rewrite query_cortex_search_run, Hsvc.
  split; [reflexivity|]. split; [apply length_map|]. split.
  - intros i. apply list_lookup_fmap.
  - apply Forall_fmap, Forall_forall. intros doc _. apply result_dict_no_distance.
Qed.

Lemma query_cortex_search_keeps_service_order_witness :
  exists results,
    query_cortex_search sample_env "q" (VVector [1%Q; 0%Q]) 2 sample_world
      = (Returned results, sample_world)
    /\ length results = 2%nat
    /\ (forall i : nat, results !! i = result_dict <$> take 2 sample_corpus !! i)
    /\ Forall (fun r => ~ carries_distance r) results.
Proof.
  apply (query_cortex_search_keeps_service_order sample_env "q" (VVector [1%Q; 0%Q]) 2
           sample_world (take 2 sample_corpus)).
  reflexivity.
Defined.

(** C1 as stated fails: for a reachable service and a corpus of three
    documents the call returns results, and not every one of them carries
    a distance. *)
Lemma query_cortex_search_no_distance_counterexample :
  exists results,
    query_cortex_search sample_env "q" (VVector [1%Q; 0%Q]) 2 sample_world
      = (Returned results, sample_world)
    /\ results <> []
    /\ ~ Forall carries_distance results.
Proof.
  exists (map result_dict (take 2 sample_corpus)).
  split; [reflexivity|]. split; [discriminate|].
  intros H. apply Forall_cons in H as [H _].
  by apply result_dict_no_distance in H.
Qed.

(** ** query_cortex_search: number of results *)

(** C2, as the code has it: [top_k] is forwarded unchanged as the
    service's limit, and for every [top_k] the call returns exactly one
    result per row of the service's response, in the order of the
    response: the code never truncates, also when the response has more
    rows than [top_k].  When the service call raises, the list is empty
    whatever the size of the corpus.  Hence, for [0 <= top_k], the list
    has at most [top_k] elements whenever the response honours the
    limit. *)
Theorem query_cortex_search_length env query_text query_vector top_k w :
  exists results w',
    query_cortex_search env query_text query_vector top_k w = (Returned results, w')
    /\ match cortex_search env (corpus w)
               (mkSearchRequest query_vector
                  ["source_id"; "original_url"; "stage_file_path"] top_k) with
       | Returned docs =>
           length results = length docs
           /\ (forall i : nat, results !! i = result_dict <$> docs !! i)
       | Raised _ => results = []
       end
    /\ (0 <= top_k ->
        (forall docs,
           cortex_search env (corpus w) (search_request query_vector top_k)
             = Returned docs ->
           Z.of_nat (length docs) <= top_k) ->
        Z.of_nat (length results) <= top_k).
Proof.
  rewrite query_cortex_search_run. unfold search_request.
  destruct (cortex_search env (corpus w) _) as [docs|e].
  - exists (map result_dict docs), w. split; [reflexivity|]. split.
    + split; [apply length_map|]. intros i. apply list_lookup_fmap.
    + intros _ Hlimit. rewrite length_map. by apply Hlimit.
  - eexists [], _. split; [reflexivity|]. split; [reflexivity|].
    intros Hk _. simpl. lia.
Qed.

Lemma query_cortex_search_length_witness :
  (exists results w',
     query_cortex_search sample_env "q" (VVector [1%Q; 0%Q]) 2 sample_world
       = (Returned results, w')
     /\ Z.of_nat (length results) <= 2)
  /\ (exists results w',
        query_cortex_search permissive_env "q" (VVector [1%Q; 0%Q]) 1 sample_world
          = (Returned results, w')
        /\ length results = 3%nat).
Proof.
  split.
  - destruct (query_cortex_search_length sample_env "q" (VVector [1%Q; 0%Q]) 2
                sample_world) as (results & w' & Hrun & _ & Hlen).
    exists results, w'. split; [exact Hrun|]. apply Hlen; [lia|].
    intros docs [= <-]. vm_compute. discriminate.
  - destruct (query_cortex_search_length permissive_env "q" (VVector [1%Q; 0%Q]) 1
                sample_world) as (results & w' & Hrun & [Hlen _] & _).
    exists results, w'. split; [exact Hrun|exact Hlen].
Defined.

(** C2 as stated fails: with three documents in the corpus and
    [top_k = 2 <= 3], a call whose service request raises does not return
    exactly two results (it returns none). *)
Lemma query_cortex_search_top_k_counterexample :
  (2 <= length (corpus sample_world))%nat
  /\ fst (query_cortex_search unreachable_env "q" (VVector [1%Q; 0%Q]) 2 sample_world)
       = Returned []
  /\ ~ (exists results w',
          query_cortex_search unreachable_env "q" (VVector [1%Q; 0%Q]) 2 sample_world
            = (Returned results, w')
          /\ length results = 2%nat).
Proof.
  split; [simpl; lia|]. split; [reflexivity|].
  intros (results & w' & Hrun & Hlen).
  rewrite query_cortex_search_run in Hrun. simpl in Hrun.
  injection Hrun as <- _. discriminate.
Qed.

(** ** query_cortex_search: validation and failure *)

(** C3, as the code has it: [query_cortex_search] checks nothing itself.
    For every vector and every [top_k] it sends the request to the
    service; it always returns to its caller and never raises.  When the
    service answers, the results are built from the response and nothing
    is emitted; when the request raises, the failure is shown by three
    error elements and the empty list is returned. *)
Theorem query_cortex_search_never_raises env query_text query_vector top_k w :
  exists results w',
    query_cortex_search env query_text query_vector top_k w = (Returned results, w')
    /\ match cortex_search env (corpus w)
               (mkSearchRequest query_vector
                  ["source_id"; "original_url"; "stage_file_path"] top_k) with
       | Returned docs => results = map result_dict docs /\ w' = w
       | Raised e =>
           results = []
           /\ w' = set_ui (ui w ++ search_error_elements query_text query_vector e) w
       end.
Proof.
  rewrite query_cortex_search_run. unfold search_request.
  destruct (cortex_search env (corpus w) _) as [docs|e]; eauto.
Qed.

(** C3 as stated fails: a call with an empty vector and [top_k = 0] is
    not rejected; it is sent to the service, whose rows are returned, and
    no error reaches the caller.  A request the service itself rejects
    ([top_k = -1]) also ends in a normal return of the empty list. *)
Lemma query_cortex_search_validation_counterexample :
  (exists results,
     query_cortex_search permissive_env "q" (VVector []) 0 sample_world
       = (Returned results, sample_world)
     /\ length results = 3%nat)
  /\ ~ (exists e w',
          query_cortex_search permissive_env "q" (VVector []) 0 sample_world
            = (Raised e, w'))
  /\ fst (query_cortex_search sample_env "q" VNone (-1) sample_world) = Returned [].
Proof.
  split; [|split].
  - eexists. split; reflexivity.
  - intros (e & w' & Hrun). rewrite query_cortex_search_run in Hrun.
    simpl in Hrun. discriminate.
  - reflexivity.
Qed.

(** ** query_cortex_search: empty index *)

(** C5, as the code has it: [query_cortex_search] never raises, and it
    returns the empty list with nothing shown exactly when the service
    answers with no rows, which is the answer for an empty index.  When
    the request raises instead (also on an empty index), it still returns
    the empty list, but shows three error elements.  So on an empty index
    whose service answers only with rows of the index, the result is the
    empty list for every query vector and every [top_k]. *)
Theorem query_cortex_search_empty_answer env query_text query_vector top_k w :
  (query_cortex_search env query_text query_vector top_k w = (Returned [], w)
   <-> cortex_search env (corpus w) (search_request query_vector top_k)
       = Returned [])
  /\ (forall e,
        cortex_search env (corpus w) (search_request query_vector top_k) = Raised e ->
        query_cortex_search env query_text query_vector top_k w
        = (Returned [],
           set_ui (ui w ++ search_error_elements query_text query_vector e) w))
  /\ (exists results w',
        query_cortex_search env query_text query_vector top_k w
        = (Returned results, w'))
  /\ (corpus w = [] ->
      (forall req docs, cortex_search env [] req = Returned docs -> docs = []) ->
      fst (query_cortex_search env query_text query_vector top_k w) = Returned []).
Proof.
  rewrite query_cortex_search_run.
  split; [|split; [|split]].
  - destruct (cortex_search env (corpus w) _) as [docs|e]; split.
    + intros [= Hnil]. apply fmap_nil_inv in Hnil. by rewrite Hnil.
    + by intros [= ->].
    + intros [= Hui]. apply (f_equal ui) in Hui. simpl in Hui.
      apply (f_equal length) in Hui. rewrite length_app in Hui.
      simpl in Hui. lia.
    + discriminate.
  - intros e ->. reflexivity.
  - destruct (cortex_search env (corpus w) _); by eexists _, _.
  - intros Hempty Hsvc. rewrite Hempty.
    destruct (cortex_search env [] _) as [docs|e] eqn:Hanswer; [|reflexivity].
    by rewrite (Hsvc _ _ Hanswer).
Qed.

Lemma query_cortex_search_empty_answer_witness :
  query_cortex_search sample_env "q" (VVector [1%Q; 0%Q]) 5 empty_world
  = (Returned [], empty_world).
Proof.
  destruct (query_cortex_search_empty_answer sample_env "q" (VVector [1%Q; 0%Q]) 5
              empty_world) as [[_ Hsilent] _].
  apply Hsilent. reflexivity.
Defined.

(** C5 as stated fails: on an empty index a request that raises is
    signalled by three error elements on the page, both when the service
    rejects the limit ([top_k = -1]) and when it cannot be reached. *)
Lemma query_cortex_search_empty_index_counterexample :
  corpus empty_world = []
  /\ ui (snd (query_cortex_search sample_env "q" (VVector [1%Q; 0%Q]) (-1)
              empty_world))
     = [ StError [Lit "Search error: "; Exn (Exception "invalid limit")];
         StError [Lit "Query text: "; Lit "q"];
         StError [Lit "Vector length: "; Num 2] ]
  /\ ui (snd (query_cortex_search unreachable_env "q" (VVector [1%Q; 0%Q]) 5
              empty_world))
     = [ StError [Lit "Search error: "; Exn (Exception "service unavailable")];
         StError [Lit "Query text: "; Lit "q"];
         StError [Lit "Vector length: "; Num 2] ]
  /\ ~ (query_cortex_search unreachable_env "q" (VVector [1%Q; 0%Q]) 5 empty_world
        = (Returned [], empty_world)).
Proof.
  split; [reflexivity|]. split; [reflexivity|]. split; [reflexivity|].
  rewrite query_cortex_search_run. simpl. discriminate.
Qed.

(** ** query_cortex_search: repeated calls *)




(** ** get_available_images *)

Lemma sql_leb_total (a b : value) : sql_leb a b = true \/ sql_leb b a = true.
Proof.
  destruct a as [|x|s|u], b as [|y|t|v]; simpl; auto.
  - destruct (Z.leb_spec x y); [by left|right]. apply Z.leb_le. lia.
  - apply String.leb_total.
Qed.

#[global] Instance row_le_total col : Total (row_le col).
Proof. intros r1 r2. apply sql_leb_total. Qed.

Lemma order_by_sorted col (rows : list Row) : Sorted (row_le col) (order_by col rows).
Proof. apply Sorted_merge_sort, _. Qed.

Lemma order_by_permutation col (rows : list Row) : order_by col rows ≡ₚ rows.
Proof. apply merge_sort_Permutation. Qed.

(** What the statement of [get_available_images] answers. *)
Lemma sql_select_ordered_images env w :
  sql_select_ordered env TABLE_NAME_DOWNLOADED_VECT "SOURCE_ID" w =
  match sql_fault env (SelectOrdered TABLE_NAME_DOWNLOADED_VECT "SOURCE_ID") with
  | Some e => (Raised e, w)
  | None =>
      match tables w !! TABLE_NAME_DOWNLOADED_VECT with
      | Some rows => (Returned (order_by SOURCE_ID rows), w)
      | None =>
          (Raised (Exception ("Object '" +:+ TABLE_NAME_DOWNLOADED_VECT
                              +:+ "' does not exist")), w)
      end
  end.
Proof.
  unfold sql_select_ordered.
  destruct (sql_fault env _); [reflexivity|].
  destruct (tables w !! TABLE_NAME_DOWNLOADED_VECT); reflexivity.
Qed.

(** C10: on a call that runs the corpus query (no cached value yet),
    [get_available_images] returns the empty list whenever the query
    raises, which is also what it returns for a table without rows; when
    the query succeeds it returns the rows of the table ordered ascending
    by SOURCE_ID.  It never raises. *)
Theorem get_available_images_spec env w :
  available_images_cache w = None ->
  exists result w',
    get_available_images env w = (Returned result, w')
    /\ (forall e w1,
          sql_select_ordered env TABLE_NAME_DOWNLOADED_VECT "SOURCE_ID" w
            = (Raised e, w1) ->
          result = [])
    /\ (forall rows w1,
          sql_select_ordered env TABLE_NAME_DOWNLOADED_VECT "SOURCE_ID" w
            = (Returned rows, w1) ->
          result = rows
          /\ Sorted (fun r1 r2 => sql_leb (SOURCE_ID r1) (SOURCE_ID r2) = true) result
          /\ exists table_rows,
               tables w !! TABLE_NAME_DOWNLOADED_VECT = Some table_rows
               /\ result ≡ₚ table_rows)
    /\ (tables w !! TABLE_NAME_DOWNLOADED_VECT = Some [] -> result = []).
Proof.
  intros Hmiss.
  unfold get_available_images, st_cache_data, get_available_images_body,
    try_except, bind. rewrite Hmiss, sql_select_ordered_images.
  destruct (sql_fault env _) as [e|].
  - simpl. eexists [], _. split; [reflexivity|].
    split; [reflexivity|]. split; [discriminate|reflexivity].
  - destruct (tables w !! TABLE_NAME_DOWNLOADED_VECT) as [rows|] eqn:Htable.
    + simpl. eexists (order_by SOURCE_ID rows), _. split; [reflexivity|].
      split; [discriminate|]. split.
      * intros rows' w1 [= <- <-]. split; [reflexivity|].
        split; [apply (order_by_sorted SOURCE_ID)|].
        exists rows. split; [reflexivity|apply order_by_permutation].
      * intros [= ->]. reflexivity.
    + simpl. eexists [], _. split; [reflexivity|].
      split; [reflexivity|]. split; [discriminate|discriminate].
Qed.

Lemma get_available_images_spec_witness :
  (exists w', get_available_images broken_session_env sample_world = (Returned [], w'))
  /\ (exists result w',
        get_available_images sample_env sample_world = (Returned result, w')
        /\ map SOURCE_ID result = [VInt 3; VInt 5; VInt 7]).
Proof.
  split.
  - destruct (get_available_images_spec broken_session_env sample_world)
      as (result & w' & Hrun & Hfail & _).
    + reflexivity.
    + rewrite (Hfail (Exception "session expired") sample_world) in Hrun
        by reflexivity.
      exists w'. exact Hrun.
  - destruct (get_available_images_spec sample_env sample_world)
      as (result & w' & Hrun & _ & Hok & _).
    + reflexivity.
    + exists result, w'. split; [exact Hrun|].
      destruct (Hok (order_by SOURCE_ID sample_rows) sample_world) as (-> & _).
      * reflexivity.
      * reflexivity.
Defined.

(** ** Facts about [try] blocks *)

Lemma try_except_bind {A B} (m : M A) (k : A -> M B) (h : exn -> M B) w :
  try_except (bind m k) h w =
  match m w with
  | (Returned a, w') => try_except (k a) h w'
  | (Raised e, w') => h e w'
  end.
Proof. unfold try_except, bind. by destruct (m w) as [[a|e] w']. Qed.

(** ** Computations that return and only touch the page *)

Lemma set_ui_same w : set_ui (ui w ++ []) w = w.
Proof. destruct w. unfold set_ui. simpl. by rewrite app_nil_r. Qed.

Lemma set_ui_set_ui u elements w :
  set_ui (ui (set_ui u w) ++ elements) (set_ui u w) = set_ui (u ++ elements) w.
Proof. reflexivity. Qed.

Lemma emit_run ev w : emit ev w = (Returned tt, set_ui (ui w ++ [ev]) w).
Proof. reflexivity. Qed.

(** ** display_image_grid *)

(** One result leaves exactly one element and the loop goes on, also when
    the image cannot be shown. *)
Lemma display_result_run env pos result w :
  display_result env pos result w
  = (Returned tt, set_ui (ui w ++ [result_element env pos result]) w).
Proof.
  unfold display_result, result_element, try_except, st_image, st_error.
  destruct (truthy (dict_get result "ORIGINAL_URL" (VStr ""))); [|reflexivity].
  destruct (st_image_fault env _); reflexivity.
Qed.

Lemma display_results_run env results : forall pos w,
  display_results env pos results w
  = (Returned tt,
     set_ui (ui w ++ imap (fun k r => result_element env (pos + Z.of_nat k) r)
                          results) w).
Proof.
  induction results as [|r rest IH]; intros pos w; simpl.
  - unfold ret. by rewrite set_ui_same.
  - unfold bind. rewrite display_result_run, IH. rewrite set_ui_set_ui.
    rewrite <- app_assoc. simpl. rewrite Z.add_0_r.
    do 4 f_equal. apply imap_ext. intros k x _. simpl. f_equal. lia.
Qed.

Lemma display_query_image_run env qi w :
  exists elements,
    display_query_image env qi w
    = (Returned tt, set_ui (ui w ++ elements) w)
    /\ length elements = 2%nat.
Proof.
  unfold display_query_image, bind, st_subheader, try_except, st_image, st_error,
    raise, emit, set_ui.
  destruct (qi_uploaded_image qi) as [img|];
    [destruct (st_image_fault env (SrcImage img))
    |destruct (qi_url qi) as [url|];
       [destruct (st_image_fault env (SrcValue url))|]];
    simpl; eexists [_; _]; (split; [|reflexivity]);
    by rewrite <- app_assoc.
Qed.

Lemma display_image_grid_run env results query_info w :
  exists header,
    display_image_grid env results query_info w
    = (Returned tt,
       set_ui (ui w ++ header
                 ++ imap (fun k r => result_element env (1 + Z.of_nat k) r)
                         results) w)
    /\ match results with
       | [] => header = [StWarning [Lit "No results to display"]]
       | _ :: _ =>
           (length header <= 3)%nat
           /\ last header
              = Some (StSubheader [Lit "📊 Top "; Num (Z.of_nat (length results));
                                   Lit " Similar Images"])
       end.
Proof.
  unfold display_image_grid. destruct results as [|r rest].
  { exists [StWarning [Lit "No results to display"]]. split; [|reflexivity].
    unfold st_warning. rewrite emit_run. by rewrite app_nil_r. }
  set (results := r :: rest).
  set (top := StSubheader [Lit "📊 Top "; Num (Z.of_nat (length results));
                           Lit " Similar Images"]).
  assert (Hquery : exists qels,
             (match query_info with
              | Some qi =>
                  if query_info_truthy qi then display_query_image env qi
                  else ret tt
              | None => ret tt
              end) w = (Returned tt, set_ui (ui w ++ qels) w)
             /\ (length qels <= 2)%nat).
  { destruct query_info as [qi|].
    - destruct (query_info_truthy qi).
      + destruct (display_query_image_run env qi w) as (els & Hrun & Hlen).
        exists els. split; [exact Hrun|lia].
      + exists []. unfold ret. rewrite set_ui_same. split; [done|simpl; lia].
    - exists []. unfold ret. rewrite set_ui_same. split; [done|simpl; lia]. }
  destruct Hquery as (qels & Hq & Hlen).
  exists (qels ++ [top]). split.
  - unfold bind at 1. rewrite Hq. unfold bind, st_subheader.
    rewrite emit_run, display_results_run. subst top.
    unfold set_ui. simpl. by rewrite <- !app_assoc.
  - split; [rewrite length_app; simpl; lia|apply last_snoc].
Qed.

(** X1: [display_image_grid] always returns and changes nothing but the
    page.  For a non-empty list it shows, after at most two elements for
    the query image and the "Top n" header, exactly one element per
    result, in the order of the list and numbered from 1: the image, or an
    error element when the result has no URL or its image cannot be
    shown; a failing image does not stop the ones after it.  For an empty
    list it shows the one warning and nothing else. *)
Theorem display_image_grid_elements env results query_info w :
  exists header,
    display_image_grid env results query_info w
    = (Returned tt,
       set_ui (ui w ++ header
                 ++ imap (fun k r => result_element env (1 + Z.of_nat k) r)
                         results) w)
    /\ match results with
       | [] => header = [StWarning [Lit "No results to display"]]
       | _ :: _ =>
           (length header <= 3)%nat
           /\ last header
              = Some (StSubheader [Lit "📊 Top "; Num (Z.of_nat (length results));
                                   Lit " Similar Images"])
       end.
Proof. apply display_image_grid_run. Qed.

(** X2: What is shown for a result that [query_cortex_search] built from a
    service row depends on the row alone: the defaults of
    [display_image_grid] are never used, a row without a URL (or with an
    empty one) gives the element "No URL for result #pos", and no image is
    requested for it. *)
Theorem display_of_search_result env pos (doc : pydict) w :
  let url := dict_get doc "original_url" (VStr "") in
  display_result env pos (result_dict doc) w
  = (Returned tt,
     set_ui
       (ui w ++
        [if truthy url then
           match st_image_fault env (SrcValue url) with
           | None =>
               StImage (SrcValue url)
                 [Lit "#"; Num pos; Lit ": ID ";
                  Val (dict_get doc "source_id" (VStr "N/A")); Lit newline;
                  Val (dict_get doc "stage_file_path" (VStr "N/A"))]
           | Some e =>
               StError [Lit "Error loading image #"; Num pos; Lit ": "; Exn e]
           end
         else StError [Lit "No URL for result #"; Num pos]]) w).
Proof.
  intros url. subst url. rewrite display_result_run. unfold result_element.
  assert (Hurl : dict_get (result_dict doc) "ORIGINAL_URL" (VStr "")
                 = dict_get doc "original_url" (VStr ""))
    by (unfold result_dict, dict_get at 1; by simplify_map_eq).
  assert (Hid : dict_get (result_dict doc) "SOURCE_ID" (VStr "N/A")
                = dict_get doc "source_id" (VStr "N/A"))
    by (unfold result_dict, dict_get at 1; by simplify_map_eq).
  assert (Hpath : dict_get (result_dict doc) "STAGE_FILE_PATH" (VStr "N/A")
                  = dict_get doc "stage_file_path" (VStr "N/A"))
    by (unfold result_dict, dict_get at 1; by simplify_map_eq).
  by rewrite Hurl, Hid, Hpath.
Qed.

(** ** The grid loops *)

Lemma enumerate_loop_run env (base : Z) (l : list pydict) : forall j w,
  for_each (enumerate_from j l)
    (fun '(j, result) => display_result env (base + Z.of_nat j + 1) result) w
  = (Returned tt,
     set_ui (ui w ++ imap (fun k r =>
                             result_element env (base + Z.of_nat (j + k) + 1) r) l)
            w).
Proof.
  induction l as [|r rest IH]; intros j w; simpl.
  - unfold ret. by rewrite set_ui_same.
  - unfold bind. rewrite display_result_run, IH. unfold set_ui. simpl.
    rewrite <- app_assoc. simpl. rewrite Nat.add_0_r.
    do 4 f_equal. apply imap_ext. intros k x _. simpl.
    do 3 f_equal. lia.
Qed.

Lemma row_loop_run env (results : list pydict) : forall fuel i w,
  (length results - i <= fuel)%nat ->
  for_each (range_from fuel i (length results) 3)
    (fun i =>
       for_each (enumerate (take 3 (drop i results)))
         (fun '(j, result) =>
            display_result env (Z.of_nat i + Z.of_nat j + 1) result)) w
  = (Returned tt,
     set_ui (ui w ++ imap (fun k r =>
                             result_element env (Z.of_nat i + Z.of_nat k + 1) r)
                          (drop i results)) w).
Proof.
  induction fuel as [|fuel IH]; intros i w Hfuel; simpl.
  - rewrite drop_ge by lia. unfold ret. simpl. by rewrite set_ui_same.
  - destruct (Nat.ltb_spec i (length results)) as [Hlt|Hge].
    2:{ rewrite drop_ge by lia. unfold ret. simpl. by rewrite set_ui_same. }
    simpl. unfold bind, enumerate. rewrite enumerate_loop_run.
    rewrite IH by lia. unfold set_ui. simpl. rewrite <- app_assoc.
    do 3 f_equal.
    transitivity
      (imap (fun k r => result_element env (Z.of_nat i + Z.of_nat k + 1) r)
            (take 3 (drop i results) ++ drop 3 (drop i results)));
      [|by rewrite take_drop].
    rewrite imap_app. f_equal.
    rewrite drop_drop. apply imap_ext. intros k x Hk. simpl.
    assert (length (take 3 (drop i results)) = 3%nat) as ->.
    { apply lookup_lt_Some in Hk. rewrite length_drop in Hk.
      rewrite length_take, length_drop. lia. }
    f_equal. lia.
Qed.

(** X3: The two nested loops of [display_image_grid] (rows of three columns,
    numbered [i+j+1]) visit every result exactly once, in the order of the
    list, under the consecutive numbers 1, 2, ..., whatever the length of
    the list: they do what the single pass [display_results] does. *)
Theorem display_grid_loops_flat env results w :
  display_grid_loops env results w = display_results env 1 results w.
Proof.
  unfold display_grid_loops, py_range.
  rewrite (row_loop_run env results (length results) 0 w) by lia.
  rewrite display_results_run. simpl.
  do 3 f_equal. apply imap_ext. intros k x _. simpl. f_equal. lia.
Qed.

(** ** get_available_images and its cache *)

Lemma get_available_images_body_run env w :
  exists result elements,
    get_available_images_body env w
    = (Returned result, set_ui (ui w ++ elements) w)
    /\ (forall e w1,
          sql_select_ordered env TABLE_NAME_DOWNLOADED_VECT "SOURCE_ID" w
            = (Raised e, w1) ->
          result = [] /\ elements = [StError [Lit "Error loading images: "; Exn e]])
    /\ (forall rows w1,
          sql_select_ordered env TABLE_NAME_DOWNLOADED_VECT "SOURCE_ID" w
            = (Returned rows, w1) ->
          result = rows /\ elements = []).
Proof.
  unfold get_available_images_body, try_except, bind.
  rewrite sql_select_ordered_images.
  destruct (sql_fault env _) as [e|];
    [|destruct (tables w !! TABLE_NAME_DOWNLOADED_VECT) as [rows|]].
  - eexists [], [_]. split; [reflexivity|]. split.
    + by intros e' w1 [= <- <-].
    + discriminate.
  - exists (order_by SOURCE_ID rows), []. simpl. rewrite set_ui_same.
    split; [reflexivity|]. split.
    + discriminate.
    + by intros rows' w1 [= <- <-].
  - eexists [], [_]. split; [reflexivity|]. split.
    + by intros e' w1 [= <- <-].
    + discriminate.
Qed.

(** X4: Once [get_available_images] has run its query, every later call
    returns what that first call returned and shows again what it showed,
    without querying: whatever the session and the table have become.  In
    particular a first call whose query raised makes every later call
    return the empty list and show the same error, also when the query
    would now succeed. *)
Theorem get_available_images_cached env w :
  available_images_cache w = None ->
  exists result elements w1,
    get_available_images env w = (Returned result, w1)
    /\ ui w1 = ui w ++ elements
    /\ (forall e w',
          sql_select_ordered env TABLE_NAME_DOWNLOADED_VECT "SOURCE_ID" w
            = (Raised e, w') ->
          result = [])
    /\ forall env2 w2,
         available_images_cache w2 = available_images_cache w1 ->
         get_available_images env2 w2
         = (Returned result, set_ui (ui w2 ++ elements) w2).
Proof.
  intros Hmiss.
  destruct (get_available_images_body_run env w)
    as (result & elements & Hbody & Hfail & _).
  exists result, elements. eexists.
  unfold get_available_images at 1, st_cache_data. rewrite Hmiss, Hbody.
  split; [reflexivity|]. split; [reflexivity|]. split.
  - intros e w' Hq. by destruct (Hfail e w' Hq).
  - intros env2 w2 Hcache. unfold get_available_images, st_cache_data.
    rewrite Hcache. simpl. by rewrite drop_app_length.
Qed.

Lemma get_available_images_cached_witness :
  exists w1,
    get_available_images broken_session_env empty_world = (Returned [], w1)
    /\ tables sample_world !! TABLE_NAME_DOWNLOADED_VECT = Some sample_rows
    /\ fst (get_available_images sample_env
              (set_cache (available_images_cache w1) sample_world))
       = Returned [].
Proof.
  destruct (get_available_images_cached broken_session_env empty_world)
    as (result & elements & w1 & Hrun & _ & Hfail & Hlater).
  - reflexivity.
  - rewrite (Hfail (Exception "session expired") empty_world) in Hrun, Hlater
      by reflexivity.
    exists w1. split; [exact Hrun|]. split; [reflexivity|].
    rewrite (Hlater sample_env
               (set_cache (available_images_cache w1) sample_world))
      by reflexivity.
    reflexivity.
Defined.

(** ** The selection tab *)

Lemma image_options_snoc str rows img :
  image_options str (rows ++ [img])
  = <[option_label str img := img]> (image_options str rows).
Proof. unfold image_options. by rewrite fold_left_app. Qed.

(** X5: The options of the selectbox hold, for every label, the last row of
    the table that has this label: rows that share SOURCE_ID and
    STAGE_FILE_PATH collapse into one option and only the last of them can
    be selected; a label of no row is not an option. *)
Theorem image_options_last_wins str (rows : list Row) (label : string) :
  image_options str rows !! label
  = last (filter (fun img => option_label str img = label) rows).
Proof.
  induction rows as [|img rows IH] using rev_ind.
  - reflexivity.
  - rewrite image_options_snoc, filter_app, lookup_insert.
    rewrite filter_cons, filter_nil.
    destruct (decide (option_label str img = label)) as [Heq|Hne].
    + by rewrite last_snoc.
    + by rewrite app_nil_r.
Qed.

Lemma option_truthy_label (label : string) :
  label <> "" -> option_truthy (Some label) = true.
Proof. intros Hne. simpl. by apply negb_true_iff, String.eqb_neq. Qed.

(** What the search of the selection tab does once the selected row is
    known. *)
Lemma tab1_search_found env str (options : gmap string Row) label img top_k w :
  label <> "" ->
  options !! label = Some img ->
  exists grid,
    tab1_search env str options (Some label) true top_k w
    = (Returned tt,
       set_ui
         (ui w ++
          match cortex_search env (corpus w)
                  (search_request (IMAGE_VECTOR img) top_k) with
          | Returned docs =>
              grid ++ [StSuccess [Lit "✅ Found "; Num (Z.of_nat (length docs));
                                  Lit " similar images!"]]
          | Raised e =>
              search_error_elements (str (ORIGINAL_URL img)) (IMAGE_VECTOR img) e
              ++ [StWarning [Lit "No results to display"];
                  StSuccess [Lit "✅ Found "; Num 0; Lit " similar images!"]]
          end) w).
Proof.
  intros Hlabel Hsel. unfold tab1_search.
  rewrite (option_truthy_label label Hlabel). cbn [andb].
  change (default "" (Some label)) with label.
  unfold dict_getitem. rewrite Hsel. unfold bind at 1, ret.
  unfold try_except, bind. rewrite query_cortex_search_run.
  destruct (cortex_search env (corpus w) (search_request (IMAGE_VECTOR img) top_k))
    as [docs|e].
  - match goal with
    | |- context [display_image_grid env ?rs ?qi w] =>
        destruct (display_image_grid_run env rs qi w) as (header & -> & _)
    end.
    exists (header ++ imap (fun k r => result_element env (1 + Z.of_nat k) r)
                           (map result_dict docs)).
    unfold st_success. rewrite emit_run. unfold set_ui.
    cbn [ui corpus tables available_images_cache stage local_fs tmp_counter
         embed_calls].
    rewrite length_map. by rewrite <- !app_assoc.
  - exists []. unfold display_image_grid, st_warning, st_success.
    rewrite !emit_run. unfold set_ui, search_error_elements.
    cbn [ui corpus tables available_images_cache stage local_fs tmp_counter
         embed_calls app].
    by rewrite <- !app_assoc.
Qed.

(** X6: Pressing the search button of the selection tab with a selected
    label: when the label is an option, the search returns and changes
    nothing but the page, and the last element it shows is the success
    message with the number of rows the service answered with; when the
    label is not an option, the lookup raises KeyError out of the block
    and nothing is shown. *)
Theorem tab1_search_outcome env str (options : gmap string Row) label top_k w :
  label <> "" ->
  match options !! label with
  | Some img =>
      exists elements,
        tab1_search env str options (Some label) true top_k w
        = (Returned tt, set_ui (ui w ++ elements) w)
        /\ last elements
           = Some (StSuccess
                     [Lit "✅ Found ";
                      Num (match cortex_search env (corpus w)
                                   (search_request (IMAGE_VECTOR img) top_k) with
                           | Returned docs => Z.of_nat (length docs)
                           | Raised _ => 0
                           end);
                      Lit " similar images!"])
  | None =>
      tab1_search env str options (Some label) true top_k w
      = (Raised (Exception ("'" +:+ label +:+ "'")), w)
  end.
Proof.
  intros Hlabel. destruct (options !! label) as [img|] eqn:Hsel.
  - destruct (tab1_search_found env str options label img top_k w Hlabel Hsel)
      as (grid & Hrun).
    eexists. split; [exact Hrun|].
    destruct (cortex_search env (corpus w) _) as [docs|e].
    + apply last_snoc.
    + by rewrite last_app.
  - unfold tab1_search. rewrite (option_truthy_label label Hlabel). cbn [andb].
    change (default "" (Some label)) with label.
    unfold dict_getitem. by rewrite Hsel.
Qed.

Lemma tab1_search_outcome_witness :
  (exists elements,
     tab1_search sample_env sample_str (image_options sample_str sample_rows)
       (Some "ID 3: images/3.jpg") true 2 sample_world
     = (Returned tt, set_ui (ui sample_world ++ elements) sample_world)
     /\ last elements
        = Some (StSuccess [Lit "✅ Found "; Num 2; Lit " similar images!"]))
  /\ tab1_search sample_env sample_str (image_options sample_str sample_rows)
       (Some "ID 4: images/4.jpg") true 2 sample_world
     = (Raised (Exception "'ID 4: images/4.jpg'"), sample_world).
Proof.
  split.
  - apply (tab1_search_outcome sample_env sample_str
             (image_options sample_str sample_rows) "ID 3: images/3.jpg" 2
             sample_world).
    discriminate.
  - apply (tab1_search_outcome sample_env sample_str
             (image_options sample_str sample_rows) "ID 4: images/4.jpg" 2
             sample_world).
    discriminate.
Defined.

(** X7: In the selection tab a search whose service request raises is
    reported to the user as three error elements, then the warning "No
    results to display", then the success message with 0 results; the
    block's own handler ("Search failed") is not reached. *)
Theorem tab1_search_failure_shown_as_success env str (options : gmap string Row)
    label img top_k e w :
  label <> "" ->
  options !! label = Some img ->
  cortex_search env (corpus w) (search_request (IMAGE_VECTOR img) top_k)
    = Raised e ->
  tab1_search env str options (Some label) true top_k w
  = (Returned tt,
     set_ui (ui w
             ++ search_error_elements (str (ORIGINAL_URL img)) (IMAGE_VECTOR img) e
             ++ [StWarning [Lit "No results to display"];
                 StSuccess [Lit "✅ Found "; Num 0; Lit " similar images!"]]) w).
Proof.
  intros Hlabel Hsel Hsvc.
  destruct (tab1_search_found env str options label img top_k w Hlabel Hsel)
    as (grid & Hrun).
  by rewrite Hsvc in Hrun.
Qed.

Lemma tab1_search_failure_shown_as_success_witness :
  ui (snd (tab1_search unreachable_env sample_str
             (image_options sample_str sample_rows)
             (Some "ID 3: images/3.jpg") true 2 sample_world))
  = [ StError [Lit "Search error: "; Exn (Exception "service unavailable")];
      StError [Lit "Query text: "; Lit "https://img/3.jpg"];
      StError [Lit "Vector length: "; Num 2];
      StWarning [Lit "No results to display"];
      StSuccess [Lit "✅ Found "; Num 0; Lit " similar images!"] ].
Proof.
  rewrite (tab1_search_failure_shown_as_success unreachable_env sample_str
             (image_options sample_str sample_rows) "ID 3: images/3.jpg"
             (mkRow (VInt 3) (VStr "https://img/3.jpg") (VStr "images/3.jpg")
                    (VVector [0%Q; 1%Q]))
             2 (Exception "service unavailable") sample_world);
    [reflexivity|discriminate|reflexivity|reflexivity].
Defined.

(** ** The upload-search handler: outcome of a run *)

Lemma unused_candidate_fresh fuel : forall n suffix (fs : gmap string bytes) k,
  unused_candidate fuel n suffix fs = Some k ->
  fs !! tmp_candidate k suffix = None.
Proof.
  induction fuel as [|fuel IH]; intros n suffix fs k; simpl; [discriminate|].
  destruct (fs !! tmp_candidate n suffix) eqn:Hn.
  - apply IH.
  - by intros [= <-].
Qed.



Lemma local_fs_set_ui u w : local_fs (set_ui u w) = local_fs w.
Proof. reflexivity. Qed.

Lemma upload_search_except_run name e w :
  upload_search_except (Some name) e w
  = (Returned tt,
     set_local_fs (delete name (local_fs w))
                  (set_ui (ui w ++ [upload_failed_element e]) w)).
Proof.
  unfold upload_search_except, bind, st_error. rewrite emit_run.
  unfold try_except, bind, os_path_exists, os_unlink.
  rewrite !local_fs_set_ui.
  destruct (local_fs w !! name) as [c|] eqn:Hfile.
  - rewrite bool_decide_eq_true_2 by eauto. cbv beta.
    rewrite !local_fs_set_ui, Hfile. reflexivity.
  - rewrite bool_decide_eq_false_2 by (intros [? ?]; congruence).
    unfold ret. rewrite delete_id by done.
    by destruct w.
Qed.

Lemma upload_search_except_unbound e w :
  upload_search_except None e w
  = (Returned tt, set_ui (ui w ++ [upload_failed_element e]) w).
Proof. reflexivity. Qed.

(** The part of the handler that follows the embedding statement. *)
Lemma after_embed_run env uploaded_file top_k_upload name image content
    (vector_result : list value) w :
  local_fs w !! name = Some content ->
  exists elements,
    try_except
      ((match vector_result with
        | uploaded_vector :: _ =>
            results <- query_cortex_search env (uf_name uploaded_file)
                                           uploaded_vector top_k_upload ;;
            display_image_grid env results
              (Some (mkQueryInfo (Some image) None
                                 (Some (VStr (uf_name uploaded_file))) None)) ;;;
            st_success [Lit "✅ Found "; Num (Z.of_nat (length results));
                        Lit " similar images!"]
        | [] => ret tt
        end) ;;;
       os_unlink name)
      (upload_search_except (Some name)) w
    = (Returned tt,
       set_local_fs (delete name (local_fs w)) (set_ui (ui w ++ elements) w))
    /\ match vector_result with
       | uploaded_vector :: _ =>
           match cortex_search env (corpus w)
                   (search_request uploaded_vector top_k_upload) with
           | Returned docs =>
               last elements
               = Some (StSuccess [Lit "✅ Found "; Num (Z.of_nat (length docs));
                                  Lit " similar images!"])
           | Raised e =>
               elements
               = search_error_elements (uf_name uploaded_file) uploaded_vector e
                 ++ [StWarning [Lit "No results to display"];
                     StSuccess [Lit "✅ Found "; Num 0; Lit " similar images!"]]
           end
       | [] => elements = []
       end.
Proof.
  intros Hfile. unfold try_except. unfold bind at 1.
  destruct vector_result as [|v vs].
  - exists []. unfold ret, os_unlink. rewrite Hfile.
    split; [|reflexivity]. by rewrite set_ui_same.
  - unfold bind at 1. rewrite query_cortex_search_run.
    destruct (cortex_search env (corpus w) (search_request v top_k_upload))
      as [docs|e].
    + unfold bind.
      match goal with
      | |- context [display_image_grid env ?rs ?qi w] =>
          destruct (display_image_grid_run env rs qi w) as (header & -> & _)
      end.
      unfold st_success. rewrite emit_run. unfold os_unlink.
      rewrite !local_fs_set_ui, Hfile.
      exists ((header ++ imap (fun k r => result_element env (1 + Z.of_nat k) r)
                               (map result_dict docs))
              ++ [StSuccess [Lit "✅ Found ";
                             Num (Z.of_nat (length (map result_dict docs)));
                             Lit " similar images!"]]).
      split.
      * unfold set_ui, set_local_fs.
        cbn [ui corpus tables available_images_cache stage local_fs tmp_counter
             embed_calls].
        rewrite <- !app_assoc. reflexivity.
      * rewrite length_map. apply last_snoc.
    + unfold bind, display_image_grid, st_warning, st_success.
      rewrite !emit_run. unfold os_unlink. rewrite !local_fs_set_ui, Hfile.
      exists (search_error_elements (uf_name uploaded_file) v e
              ++ [StWarning [Lit "No results to display"];
                  StSuccess [Lit "✅ Found "; Num 0; Lit " similar images!"]]).
      split; [|reflexivity].
      unfold set_ui, set_local_fs, search_error_elements.
      cbn [ui corpus tables available_images_cache stage local_fs tmp_counter
           embed_calls length app].
      by rewrite <- !app_assoc.
Qed.

Lemma world_ext (w1 w2 : World) :
  ui w1 = ui w2 -> corpus w1 = corpus w2 -> tables w1 = tables w2 ->
  available_images_cache w1 = available_images_cache w2 ->
  stage w1 = stage w2 -> local_fs w1 = local_fs w2 ->
  tmp_counter w1 = tmp_counter w2 -> embed_calls w1 = embed_calls w2 ->
  w1 = w2.
Proof. destruct w1, w2. simpl. by intros -> -> -> -> -> -> -> ->. Qed.

Ltac world_eq Hidx Hfresh :=
  f_equal; apply world_ext;
  lazy beta iota delta [ui corpus tables available_images_cache stage local_fs
                        tmp_counter embed_calls set_local_fs set_ui set_stage
                        set_tmp_counter set_embed_calls upload_search_world];
  rewrite ?Hidx, ?delete_insert_eq, ?(delete_id _ _ Hfresh); reflexivity.

(** One run of the upload search, step by step: what it shows, what it
    leaves in the stage and which embedding calls it makes, by the first
    step that fails. *)
Lemma upload_search_outcome env uploaded_file top_k_upload w :
  match temp_file_fault env w with
  | Some e =>
      upload_search env uploaded_file top_k_upload w
      = (Returned tt, set_ui (ui w ++ [upload_failed_element e]) w)
  | None =>
  exists elements stage' calls,
    upload_search env uploaded_file top_k_upload w
    = (Returned tt, upload_search_world w elements stage' calls)
    /\ local_fs w !! tmp_name_of w = None
    /\ match pil_open env (uf_value uploaded_file) with
       | Raised e =>
           elements = [upload_failed_element e]
           /\ stage' = stage w /\ calls = embed_calls w
       | Returned img =>
           match pil_save_jpeg env (to_rgb env img) with
           | Raised e =>
               elements = [upload_failed_element e]
               /\ stage' = stage w /\ calls = embed_calls w
           | Returned jpeg =>
               match put_fault env (tmp_name_of w) with
               | Some e =>
                   elements = [upload_failed_element e]
                   /\ stage' = stage w /\ calls = embed_calls w
               | None =>
                   stage' = <[staged_path_of w := jpeg]> (stage w)
                   /\ match sql_fault env
                              (SelectAiEmbed EMBED_MODEL (staged_path_of w)) with
                      | Some e =>
                          elements = [upload_failed_element e]
                          /\ calls = embed_calls w
                      | None =>
                          calls = embed_calls w ++ [(EMBED_MODEL, jpeg)]
                          /\ match ai_embed env EMBED_MODEL jpeg with
                             | Raised e => elements = [upload_failed_element e]
                             | Returned v =>
                                 match cortex_search env (corpus w)
                                         (search_request v top_k_upload) with
                                 | Returned docs =>
                                     last elements
                                     = Some (StSuccess
                                               [Lit "✅ Found ";
                                                Num (Z.of_nat (length docs));
                                                Lit " similar images!"])
                                 | Raised e =>
                                     elements
                                     = search_error_elements
                                         (uf_name uploaded_file) v e
                                       ++ [StWarning [Lit "No results to display"];
                                           StSuccess [Lit "✅ Found "; Num 0;
                                                      Lit " similar images!"]]
                                 end
                             end
                      end
               end
           end
       end
  end.
Proof.
  unfold upload_search, named_temporary_file, temp_file_fault,
    staged_path_of, tmp_name_of, tmp_index_of.
  destruct (tmp_fault env) as [e|]; [apply upload_search_except_unbound|].
  destruct (unused_candidate TMP_MAX (tmp_counter w) ".jpeg" (local_fs w))
    as [n|] eqn:Hn; [|apply upload_search_except_unbound].
  pose proof (unused_candidate_fresh _ _ _ _ _ Hn) as Hfresh.
  assert (Hidx : tmp_index_of w = n) by (unfold tmp_index_of; by rewrite Hn).
  change (default (tmp_counter w) (Some n)) with n.
  set (name := tmp_candidate n ".jpeg") in *.
  set (w1 := set_tmp_counter _ _).
  unfold upload_search_body. rewrite try_except_bind.
  unfold image_open, lift_outcome.
  destruct (pil_open env (uf_value uploaded_file)) as [img|e].
  2:{ exists [upload_failed_element e], (stage w), (embed_calls w).
      split; [|done]. rewrite upload_search_except_run. subst w1.
      world_eq Hidx Hfresh. }
  rewrite try_except_bind. unfold image_save_jpeg.
  destruct (pil_save_jpeg env (to_rgb env img)) as [jpeg|e].
  2:{ exists [upload_failed_element e], (stage w), (embed_calls w).
      split; [|done]. rewrite upload_search_except_run. subst w1.
      world_eq Hidx Hfresh. }
  set (w2 := set_local_fs _ w1).
  rewrite try_except_bind. unfold session_file_put.
  destruct (put_fault env name) as [e|].
  { exists [upload_failed_element e], (stage w), (embed_calls w).
    split; [|done]. rewrite upload_search_except_run. subst w2 w1.
    world_eq Hidx Hfresh. }
  assert (Hfile : local_fs w2 !! name = Some jpeg).
  { subst w2. simpl. apply lookup_insert_eq. }
  rewrite Hfile.
  set (w3 := set_stage _ w2).
  rewrite try_except_bind. unfold sql_ai_embed.
  change ("@" +:+ STAGE_NAME +:+ "/temp/" +:+ basename name)
    with ("@IMAGES/temp/" +:+ basename name).
  unfold EMBED_MODEL.
  destruct (sql_fault env
              (SelectAiEmbed "voyage-multimodal-3"
                 ("@IMAGES/temp/" +:+ basename name))) as [e|].
  { exists [upload_failed_element e],
      (<["@IMAGES/temp/" +:+ basename name := jpeg]> (stage w)), (embed_calls w).
    split; [|done]. rewrite upload_search_except_run. subst w3 w2 w1.
    world_eq Hidx Hfresh. }
  assert (Hstaged : stage w3 !! ("@IMAGES/temp/" +:+ basename name) = Some jpeg).
  { subst w3. simpl. apply lookup_insert_eq. }
  rewrite Hstaged.
  set (w4 := set_embed_calls _ w3).
  destruct (ai_embed env "voyage-multimodal-3" jpeg) as [v|e].
  - destruct (after_embed_run env uploaded_file top_k_upload name (to_rgb env img)
                jpeg [v] w4 Hfile) as (elements & Hrun & Hshown).
    exists elements, (<["@IMAGES/temp/" +:+ basename name := jpeg]> (stage w)),
      (embed_calls w ++ [("voyage-multimodal-3", jpeg)]).
    split; [|done].
    etrans; [exact Hrun|]. subst w4 w3 w2 w1. world_eq Hidx Hfresh.
  - exists [upload_failed_element e],
      (<["@IMAGES/temp/" +:+ basename name := jpeg]> (stage w)),
      (embed_calls w ++ [("voyage-multimodal-3", jpeg)]).
    split; [|done]. rewrite upload_search_except_run.
    subst w4 w3 w2 w1. world_eq Hidx Hfresh.
Qed.



(** X10: the staged copy is never cleaned up: once the JPEG has been put
    into the stage it stays there after the run, also when the embedding
    statement, the search or the display fails afterwards; when the
    temporary file cannot be created, or decoding, encoding or the put
    itself fails, the stage is unchanged. *)
Theorem upload_search_leaves_staged_file env uploaded_file top_k_upload w :
  stage (snd (upload_search env uploaded_file top_k_upload w))
  = match temp_file_fault env w with
    | Some _ => stage w
    | None =>
        match pil_open env (uf_value uploaded_file) with
        | Returned img =>
            match pil_save_jpeg env (to_rgb env img),
                  put_fault env (tmp_name_of w) with
            | Returned jpeg, None => <[staged_path_of w := jpeg]> (stage w)
            | _, _ => stage w
            end
        | Raised _ => stage w
        end
    end.
Proof.
  pose proof (upload_search_outcome env uploaded_file top_k_upload w) as Hrun.
  destruct (temp_file_fault env w) as [e|]; [by rewrite Hrun|].
  destruct Hrun as (elements & stage' & calls & Hrun & _ & Hcases).
  rewrite Hrun. simpl.
  destruct (pil_open env (uf_value uploaded_file)) as [img|e];
    [|by destruct Hcases as (_ & -> & _)].
  destruct (pil_save_jpeg env (to_rgb env img)) as [jpeg|e];
    [|by destruct Hcases as (_ & -> & _)].
  destruct (put_fault env (tmp_name_of w)) as [e|];
    [by destruct Hcases as (_ & -> & _)|].
  by destruct Hcases as (-> & _).
Qed.





(** ** The upload-search handler: what is embedded, and how often *)

Lemma to_rgb_mode env image :
  (forall img m, mode (pil_convert env img m) = m) ->
  mode (to_rgb env image) = "RGB".
Proof.
  intros Hconv. unfold to_rgb.
  destruct (String.eqb (mode image) "RGB") eqn:Hmode.
  - by apply String.eqb_eq.
  - apply Hconv.
Qed.

(** C9: with the upload present and the button pressed, the handler
    decodes the upload, converts the image to RGB mode unless it already
    is in that mode, encodes the RGB image as JPEG, stages that file, and
    runs the embedding model on the staged content.  Whenever the model
    runs, its input is the JPEG encoding of the decoded image brought to
    RGB mode, which is also what the stage holds, and not the uploaded
    bytes; the upload's name and declared type play no part.  The model
    does not run when the temporary file cannot be created or when
    decoding, encoding, staging or the SQL statement fails. *)
Theorem upload_search_embeds_reencoded_jpeg env uploaded_file top_k_upload w :
  (forall img m, mode (pil_convert env img m) = m) ->
  let w' := snd (upload_search_handler env (Some uploaded_file) true
                                       top_k_upload w) in
  match temp_file_fault env w with
  | Some _ => embed_calls w' = embed_calls w
  | None =>
      match pil_open env (uf_value uploaded_file) with
      | Returned img =>
          let rgb := if String.eqb (mode img) "RGB" then img
                     else pil_convert env img "RGB" in
          mode rgb = "RGB"
          /\ match pil_save_jpeg env rgb,
                   put_fault env (tmp_name_of w),
                   sql_fault env (SelectAiEmbed EMBED_MODEL (staged_path_of w)) with
             | Returned jpeg, None, None =>
                 embed_calls w' = embed_calls w ++ [(EMBED_MODEL, jpeg)]
                 /\ stage w' !! staged_path_of w = Some jpeg
             | _, _, _ => embed_calls w' = embed_calls w
             end
      | Raised _ => embed_calls w' = embed_calls w
      end
  end.
Proof.
  intros Hconv w'. subst w'. simpl.
  pose proof (upload_search_outcome env uploaded_file top_k_upload w) as Hrun.
  destruct (temp_file_fault env w) as [e|]; [by rewrite Hrun|].
  destruct Hrun as (elements & stage' & calls & Hrun & _ & Hcases).
  rewrite Hrun. cbn [snd upload_search_world embed_calls stage].
  destruct (pil_open env (uf_value uploaded_file)) as [img|e];
    [|by destruct Hcases as (_ & _ & ->)].
  split; [apply (to_rgb_mode env img Hconv)|].
  change (if String.eqb (mode img) "RGB" then img else pil_convert env img "RGB")
    with (to_rgb env img).
  destruct (pil_save_jpeg env (to_rgb env img)) as [jpeg|e];
    [|by destruct Hcases as (_ & _ & ->)].
  destruct (put_fault env (tmp_name_of w)) as [e|];
    [by destruct Hcases as (_ & _ & ->)|].
  destruct Hcases as (-> & Hcases).
  destruct (sql_fault env _) as [e|]; [by destruct Hcases as (_ & ->)|].
  destruct Hcases as (-> & _).
  split; [reflexivity|apply lookup_insert_eq].
Qed.

Lemma upload_search_embeds_reencoded_jpeg_witness :
  let w' := snd (upload_search_handler sample_env (Some sample_upload) true 5
                                       sample_world) in
  embed_calls w' = [(EMBED_MODEL, [255; 216; 10; 20; 30])]
  /\ stage w' !! "@IMAGES/temp/tmp0.jpeg" = Some [255; 216; 10; 20; 30]
  /\ uf_value sample_upload = [1; 10; 20; 30].
Proof.
  pose proof (upload_search_embeds_reencoded_jpeg sample_env sample_upload 5
                sample_world) as H.
  destruct H as [_ H]; [reflexivity|].
  destruct H as [Hcalls Hstage].
  split; [exact Hcalls|]. split; [exact Hstage|reflexivity].
Defined.



